(** * CCD reduction notebooks: overscan subtraction and trimming of bias frames

    A shallow embedding of the code cells of
    [notebooks/02.01-Calibrating-bias-images.ipynb] and of the slices used in
    [notebooks/01.08-Overscan.ipynb].

    The notebooks only sequence calls into numpy, astropy, ccdproc and
    pathlib.  Each library call that a cell makes is modelled by a function of
    the same name whose comment quotes the documented behaviour it follows;
    the cells themselves are transcribed statement by statement.

    Pixel values are exact rationals plus a not-a-number value.  For integer
    detector counts the per-row median (a middle element, or half the sum of
    two) and the difference are exact in double precision as well, so no
    rounding is left out on such data. *)

From Stdlib Require Import QArith Qreduction.
From stdpp Require Import gmap strings list fin_maps sorting.

Open Scope string_scope.

(** ** numpy: values, rows, slices, medians, broadcasting *)

Module Numpy.

(** A pixel: a number, or [nan]. *)
Inductive px : Type :=
  | Num (q : Q)
  | NaN.

(** [a - b] on values; anything involving [nan] is [nan]. *)
Definition px_sub (a b : px) : px :=
  match a, b with
  | Num x, Num y => Num (Qred (x - y))
  | _, _ => NaN
  end.

(** A 2-D array, row major: a list of rows.  Axis 0 runs over the rows,
    axis 1 (the second index) over the columns. *)
Abbreviation ndarray := (list (list px)).

Definition nrows (a : ndarray) : nat := length a.

(** [a[i, j]] for indices counted from 0; [None] out of range. *)
Definition pixel (a : ndarray) (i j : nat) : option px := a !! i ≫= (.!! j).

(** [a[:, k:]]: every row from column [k] on.  Python slices never raise; a
    start beyond the end gives an empty row. *)
Definition cols_from (k : nat) (a : ndarray) : ndarray := drop k <$> a.

(** [a[:, :k]]: the first [k] columns of every row (all of a shorter row). *)
Definition cols_upto (k : nat) (a : ndarray) : ndarray := take k <$> a.

(** The numbers of a row, or [None] when one of them is [nan]. *)
Fixpoint px_values (l : list px) : option (list Q) :=
  match l with
  | [] => Some []
  | Num q :: l' => match px_values l' with Some qs => Some (q :: qs) | None => None end
  | NaN :: _ => None
  end.

Fixpoint insert_sorted (x : Q) (l : list Q) : list Q :=
  match l with
  | [] => [x]
  | y :: l' => if Qle_bool x y then x :: l else y :: insert_sorted x l'
  end.

Definition sort_Q (l : list Q) : list Q := foldr insert_sorted [] l.

(** [np.median] of one row: the middle of the sorted values, the mean of the
    two middle ones for an even count; [nan] for an empty row ("Mean of empty
    slice") and for a row holding a [nan]. *)
Definition median (l : list px) : px :=
  match px_values l with
  | None => NaN
  | Some [] => NaN
  | Some qs =>
      let s := sort_Q qs in
      let n := length s in
      if Nat.even n
      then Num (Qred ((nth (n / 2 - 1) s 0%Q + nth (n / 2) s 0%Q) / 2)%Q)
      else Num (Qred (nth (n / 2) s 0%Q))
  end.

(** [np.mean] of one row. *)
Definition mean (l : list px) : px :=
  match px_values l with
  | None => NaN
  | Some [] => NaN
  | Some qs => Num (Qred (foldr Qplus 0%Q qs / inject_Z (Z.of_nat (length qs)))%Q)
  end.

(** [np.median(a, axis=1)] and [np.mean(a, axis=1)]: one value per row. *)
Definition median_axis1 (a : ndarray) : list px := median <$> a.
Definition mean_axis1 (a : ndarray) : list px := mean <$> a.

(** [row - m] for a scalar [m]. *)
Definition row_sub (row : list px) (m : px) : list px := (λ x, px_sub x m) <$> row.

(** [a - np.reshape(o, (o.size, 1))]: an array of shape (R, C) minus a column
    of shape (n, 1).  numpy broadcasts: equal row counts subtract row by row;
    a single value is subtracted everywhere; a single row is repeated against
    every value; any other pair of row counts raises [ValueError], here
    [None]. *)
Definition broadcast_sub (a : ndarray) (o : list px) : option ndarray :=
  if decide (length a = length o) then Some (zip_with row_sub a o)
  else match o, a with
       | [m], _ => Some ((λ row, row_sub row m) <$> a)
       | _, [row] => Some (row_sub row <$> o)
       | _, _ => None
       end.

End Numpy.

(** ** Python exceptions the cells can meet *)

Inductive PyExn : Type :=
  | TypeError (msg : string)
  | ValueError (msg : string)
  | IndexError (msg : string)
  | FileNotFoundError (dir fname : string)
  | FileExistsError (dir : string)
  | OSError (dir fname : string).

(** ** FITS sections and their Python slices *)

Module Fits.

(** A section as written in a header, [[xlo:xhi,ylo:yhi]]: 1-based, both ends
    included, the column (fast, NAXIS1) range first. *)
Record section : Type := Section_ { xlo : nat; xhi : nat; ylo : nat; yhi : nat }.

(** A Python slice [start:stop]: 0-based, [stop] excluded. *)
Record slice : Type := Slice { start : nat; stop : nat }.

(** The rule the notebook states for reading a section in Python: "Python
    indexes are zero-based ..., FITS indexes are one-based" and "the order of
    the indexes is swapped"; [[1:2048,1:4128]] becomes [[0:4128, 0:2048]].
    The result is (row slice, column slice). *)
Definition slice_from_fits (s : section) : slice * slice :=
  (Slice (ylo s - 1) (yhi s), Slice (xlo s - 1) (xhi s)).

(** [l[start:stop]] on one axis. *)
Definition apply_slice {A : Type} (s : slice) (l : list A) : list A :=
  take (stop s - start s) (drop (start s) l).

(** [a[rows, cols]]. *)
Definition getitem (rc : slice * slice) (a : Numpy.ndarray) : Numpy.ndarray :=
  apply_slice (snd rc) <$> apply_slice (fst rc) a.


End Fits.

(** ** astropy.nddata.CCDData and the two ccdproc functions *)

Import Numpy.

Record CCDData : Type := mkCCDData {
  data : ndarray;
  header : gmap string string;
  unit : string
}.

Definition with_data (ccd : CCDData) (d : ndarray) : CCDData :=
  {| data := d; header := header ccd; unit := unit ccd |}.

(** [ccd[:, k:]] and [ccd[:, :k]]: slicing a CCDData slices its array and
    keeps the metadata. *)
Definition slice_cols_from (k : nat) (ccd : CCDData) : CCDData :=
  with_data ccd (cols_from k (data ccd)).

Definition slice_cols_upto (k : nat) (ccd : CCDData) : CCDData :=
  with_data ccd (cols_upto k (data ccd)).

(** [ccdproc.subtract_overscan(ccd, overscan=..., median=...)] with the default
    [overscan_axis=1] and no model:
<<
    if median: oscan = np.median(overscan.data, axis=overscan_axis)
    else:      oscan = np.mean(overscan.data, axis=overscan_axis)
    oscan = np.reshape(oscan, (oscan.size, 1))
    subtracted = ccd.copy()
    subtracted.data = ccd.data - oscan
    return subtracted
>>
    The keyword that ccdproc adds to the header to log the step is left out,
    here and in [trim_image]. *)
Definition subtract_overscan (ccd overscan : CCDData) (use_median : bool)
  : PyExn + CCDData :=
  let oscan := if use_median then median_axis1 (data overscan)
               else mean_axis1 (data overscan) in
  match broadcast_sub (data ccd) oscan with
  | Some d => inr (with_data ccd d)
  | None => inl (ValueError "operands could not be broadcast together")
  end.

(** [ccdproc.trim_image(ccd, fits_section=None)]: a copy of [ccd], cut to the
    section when one is given. *)
Definition trim_image (ccd : CCDData) (fits_section : option Fits.section) : CCDData :=
  match fits_section with
  | None => ccd
  | Some s => with_data ccd (Fits.getitem (Fits.slice_from_fits s) (data ccd))
  end.

(** ** The files on disk and the effects of a cell *)

(** A file in a directory: a FITS image (header and pixels) or something that
    cannot be read as one. *)
Inductive File : Type :=
  | FitsFile (hdr : gmap string string) (pixels : ndarray)
  | Junk.

(** What a cell does to the outside, in the order it happens. *)
Inductive Event : Type :=
  | EvRead (dir fname : string)
  | EvPrint (line : string)
  | EvWrite (dir fname : string).

(** The directories under the working directory, each a map from file name to
    file, and the effects so far (oldest first). *)
Record World : Type := mkWorld {
  fs : gmap string (gmap string File);
  trace : list Event
}.

(** A computation either raises or returns; the world it leaves behind is
    kept in both cases (files written before an exception stay written). *)
Definition Py (A : Type) : Type := World → (PyExn + A) * World.

Definition ret {A : Type} (x : A) : Py A := λ w, (inr x, w).

Definition raise {A : Type} (e : PyExn) : Py A := λ w, (inl e, w).

Definition bind {A B : Type} (m : Py A) (k : A → Py B) : Py B :=
  λ w, match m w with
       | (inr x, w') => k x w'
       | (inl e, w') => (inl e, w')
       end.

Declare Scope py_scope.
Delimit Scope py_scope with py.
Notation "x <- m ;; k" := (bind m (λ x, k))
  (at level 100, m at next level, right associativity) : py_scope.
Notation "m ;; k" := (bind m (λ _, k))
  (at level 100, right associativity) : py_scope.
Open Scope py_scope.

(** A pure library call that may raise. *)
Definition lift {A : Type} (r : PyExn + A) : Py A :=
  match r with inr x => ret x | inl e => raise e end.

Definition log (e : Event) : Py () :=
  λ w, (inr (), {| fs := fs w; trace := trace w ++ [e] |}).

(** [print(...)]. *)
Definition print (line : string) : Py () := log (EvPrint line).

Definition lookup_file (w : World) (dir fname : string) : option File :=
  fs w !! dir ≫= (.!! fname).

(** [CCDData.read(dir/fname, unit=u)]. *)
Definition CCDData_read (dir fname u : string) : Py CCDData :=
  λ w, match lookup_file w dir fname with
       | Some (FitsFile h d) => (log (EvRead dir fname);; ret (mkCCDData d h u)) w
       | Some Junk => (inl (OSError dir fname), w)
       | None => (inl (FileNotFoundError dir fname), w)
       end.

(** [ccd.write(dir / fname)]: the directory must exist and, [overwrite] being
    left at [False], the file must not; the unit goes into the header as
    BUNIT. *)
Definition CCDData_write (ccd : CCDData) (dir fname : string) : Py () :=
  λ w, match fs w !! dir with
       | None => (inl (FileNotFoundError dir fname), w)
       | Some d =>
           match d !! fname with
           | Some _ => (inl (OSError dir fname), w)
           | None =>
               let f := FitsFile (<["bunit" := unit ccd]> (header ccd)) (data ccd) in
               (inr (), {| fs := <[dir := <[fname := f]> d]> (fs w);
                           trace := trace w ++ [EvWrite dir fname] |})
           end
       end.

(** *** pathlib *)

Inductive pyval : Type :=
  | VBool (b : bool)
  | VInt (n : Z).

(** Binding keyword arguments to a signature: a keyword that names no
    parameter is a [TypeError], raised before the function body runs. *)
Fixpoint bind_kwargs (fname : string) (params : list string)
    (kwargs : list (string * pyval)) : PyExn + gmap string pyval :=
  match kwargs with
  | [] => inr ∅
  | (k, v) :: rest =>
      if decide (k ∈ params)
      then match bind_kwargs fname params rest with
           | inr m => inr (<[k := v]> m)
           | inl e => inl e
           end
      else inl (TypeError (fname ++ "() got an unexpected keyword argument '" ++ k ++ "'"))
  end.

(** The signature [Path.mkdir(mode=0o777, parents=False, exist_ok=False)]. *)
Definition mkdir_params : list string := ["mode"; "parents"; "exist_ok"].

(** [Path(dir).mkdir] called with the given keyword arguments, for a directory
    directly under the working directory. *)
Definition Path_mkdir (dir : string) (kwargs : list (string * pyval)) : Py () :=
  args <- lift (bind_kwargs "mkdir" mkdir_params kwargs);;
  λ w, match fs w !! dir with
       | None => (inr (), {| fs := <[dir := ∅]> (fs w); trace := trace w |})
       | Some _ =>
           match args !! "exist_ok" with
           | Some (VBool true) => (inr (), w)
           | _ => (inl (FileExistsError dir), w)
           end
       end.

(** *** ccdproc.ImageFileCollection *)

(** The collection keeps its directory and a summary table with one row per
    FITS file: the file name and the header keywords (lower-case names).  The
    table is built once, when the collection is created. *)
Record ImageFileCollection : Type := mkCollection {
  location : string;
  summary : list (string * gmap string string)
}.

Definition summary_row (entry : string * File) : option (string * gmap string string) :=
  match entry with
  | (fname, FitsFile h _) => Some (fname, h)
  | (_, Junk) => None
  end.

(** The order of the table: by file name. *)
Definition name_le (r1 r2 : string * gmap string string) : Prop :=
  Is_true (String.leb (fst r1) (fst r2)).

(** [ccdproc.ImageFileCollection(dir)]: list the directory, sort the names and
    read the header of every FITS file; files whose header cannot be read are
    left out of the table. *)
Definition ImageFileCollection_init (dir : string) : Py ImageFileCollection :=
  λ w, match fs w !! dir with
       | None => (inl (FileNotFoundError dir ""), w)
       | Some d =>
           (inr (mkCollection dir
                   (merge_sort name_le (omap summary_row (map_to_list d)))), w)
       end.

Definition ascii_lower (c : Ascii.ascii) : Ascii.ascii :=
  let n := Ascii.nat_of_ascii c in
  if ((65 <=? n)%nat && (n <=? 90)%nat)%bool then Ascii.ascii_of_nat (n + 32) else c.

(** [str.lower()] on ASCII text. *)
Fixpoint lower (s : string) : string :=
  match s with
  | EmptyString => EmptyString
  | String c s' => String (ascii_lower c) (lower s')
  end.

(** Does a summary row pass the filter [key=value], for a value that is a
    non-empty string?  From the docstring of [files_filtered]: "The value '*'
    represents any value" and "Value comparison is case insensitive for
    strings".  A row without the keyword does not pass. *)
Definition keyword_matches (key value : string) (hdr : gmap string string) : bool :=
  match hdr !! key with
  | None => false
  | Some v => if decide (value = "*") then true else bool_decide (lower v = lower value)
  end.

(** [files.files_filtered(key=value)]: the names of the rows that pass, in
    table order. *)
Definition files_filtered (files : ImageFileCollection) (key value : string)
  : list string :=
  fst <$> filter (λ row, Is_true (keyword_matches key value (snd row))) (summary files).

(** [for ccd, file_name in files.ccds(key=value, ccd_kwargs={'unit': u},
    return_fname=True): body].  The generator walks the filtered names; each
    time the loop asks for the next item it reads that one file with
    [CCDData.read] and yields it with its name. *)
Fixpoint for_ccds (dir u : string) (body : CCDData → string → Py ())
    (fnames : list string) : Py () :=
  match fnames with
  | [] => ret ()
  | file_name :: rest =>
      ccd <- CCDData_read dir file_name u;;
      body ccd file_name;;
      for_ccds dir u body rest
  end.

Definition ccds_loop (files : ImageFileCollection) (key value u : string)
    (body : CCDData → string → Py ()) : Py () :=
  for_ccds (location files) u body (files_filtered files key value).

(** ** The cells of 02.01-Calibrating-bias-images *)

Module Notebook.

(** [calibrated_data = Path('.', 'reduced')]. *)
Definition calibrated_data : string := "reduced".

(** [calibrated_data.mkdir(exists_ok=True)]. *)
Definition cell_mkdir : Py () :=
  Path_mkdir calibrated_data [("exists_ok", VBool true)].

(** [files = ccdp.ImageFileCollection('python_imred_data')]. *)
Definition cell_files : Py ImageFileCollection :=
  ImageFileCollection_init "python_imred_data".

(** [raw_biases = files.files_filtered(include_path=True, imagetyp='BIAS')]. *)
Definition raw_biases (files : ImageFileCollection) : list string :=
  files_filtered files "imagetyp" "BIAS".

(** [first_bias = CCDData.read(raw_biases[0], unit='adu')]. *)
Definition cell_first_bias (files : ImageFileCollection) : Py CCDData :=
  match raw_biases files with
  | [] => raise (IndexError "list index out of range")
  | f :: _ => CCDData_read (location files) f "adu"
  end.

(** The two cells on the sample image:
<<
    bias_overscan_subtracted = ccdp.subtract_overscan(first_bias, overscan=first_bias[:, 2055:], median=True)
    trimmed_bias = ccdp.trim_image(bias_overscan_subtracted[:, :2048])
>>
*)
Definition cell_sample (first_bias : CCDData) : PyExn + CCDData :=
  match subtract_overscan first_bias (slice_cols_from 2055 first_bias) true with
  | inl e => inl e
  | inr bias_overscan_subtracted =>
      inr (trim_image (slice_cols_upto 2048 bias_overscan_subtracted) None)
  end.

(** The body of the folder loop:
<<
    print('foo', file_name)
    ccd = ccdp.subtract_overscan(ccd, overscan=first_bias[:, 2055:], median=True)
    ccd = ccdp.trim_image(ccd[:, :2048])
    ccd.write(calibrated_data / file_name)
>>
*)
Definition loop_body (first_bias ccd : CCDData) (file_name : string) : Py () :=
  print ("foo " ++ file_name);;
  ccd1 <- lift (subtract_overscan ccd (slice_cols_from 2055 first_bias) true);;
  let ccd2 := trim_image (slice_cols_upto 2048 ccd1) None in
  CCDData_write ccd2 calibrated_data file_name.

(** [for ccd, file_name in files.ccds(imagetyp='BIAS', ccd_kwargs={'unit':
    'adu'}, return_fname=True): ...]. *)
Definition cell_loop (files : ImageFileCollection) (first_bias : CCDData) : Py () :=
  ccds_loop files "imagetyp" "BIAS" "adu" (loop_body first_bias).

(** The cells from the creation of the collection to the folder loop, run one
    after the other. *)
Definition cells_from_files : Py () :=
  files <- cell_files;;
  first_bias <- cell_first_bias files;;
  cell_loop files first_bias.

End Notebook.

(** ** The column regions the cells name *)

(** [x[:, 2055:]], the columns whose per-row median is subtracted. *)
Definition overscan_region (a : ndarray) : ndarray := cols_from 2055 a.

(** [x[:, :2048]], the columns the crop keeps. *)
Definition kept_region (a : ndarray) : ndarray := cols_upto 2048 a.

(** [x[:, 2048:]], the columns the crop leaves out (the overscan notebook
    plots them as [bias_lfc.data[:, 2048:]]). *)
Definition cropped_region (a : ndarray) : ndarray := cols_from 2048 a.

(** Subtract the per-row median of [src[:, 2055:]] from [ccd], then keep
    [[:, :2048]]: the two steps that the sample cells apply with [src] the
    image itself and the loop body applies with [src = first_bias]. *)
Definition subtract_then_trim (src ccd : CCDData) : PyExn + CCDData :=
  match subtract_overscan ccd (slice_cols_from 2055 src) true with
  | inl e => inl e
  | inr s => inr (trim_image (slice_cols_upto 2048 s) None)
  end.

(** The widths of the rows of an array. *)
Definition widths (a : ndarray) : list nat := length <$> a.

(** ** One turn of the folder loop *)

(** What the generator and the loop body do for one file name. *)
Definition turn (first_bias : CCDData) (dir file_name : string) : Py () :=
  ccd <- CCDData_read dir file_name "adu";;
  Notebook.loop_body first_bias ccd file_name.

(** The effects of a turn that runs to its end. *)
Definition events_of (dir file_name : string) : list Event :=
  [EvRead dir file_name; EvPrint ("foo " ++ file_name)%string;
   EvWrite Notebook.calibrated_data file_name].

(** The file a turn writes for an image with header [h] whose calibrated
    array is [d]. *)
Definition written (h : gmap string string) (d : ndarray) : File :=
  FitsFile (<["bunit" := "adu"]> h) d.

(** The exceptions one turn can end with, each raised inside a library call:
    by [CCDData.read] on a missing or unreadable file, by the subtraction on
    row counts that do not broadcast, by [write] on a missing directory or an
    existing file. *)
Definition raised_by_library (dir file_name : string) (e : PyExn) : Prop :=
  e = FileNotFoundError dir file_name
  ∨ e = OSError dir file_name
  ∨ e = ValueError "operands could not be broadcast together"
  ∨ e = FileNotFoundError Notebook.calibrated_data file_name
  ∨ e = OSError Notebook.calibrated_data file_name.

Global Instance Event_eq_dec : EqDecision Event.
Proof. solve_decision. Defined.

(** How often an event occurs in a trace. *)
Definition count_event (e : Event) (tr : list Event) : nat :=
  length (filter (e =.) tr).

(** A FITS file [dir/f] on disk whose header gives an image type that reads
    as [imagetyp] when letter case is ignored. *)
Definition typed_as (imagetyp : string) (w : World) (dir f : string) : Prop :=
  ∃ h d v, lookup_file w dir f = Some (FitsFile h d)
           ∧ h !! "imagetyp" = Some v
           ∧ lower v = lower imagetyp.

(** ** Sample frames and folders *)

Module Sample.

(** A row as wide as the LFC frames: 2048 exposed columns at one level and 32
    overscan columns at another. *)
Definition frame_row (level overscan : Z) : list px :=
  replicate 2048 (Num (inject_Z level)) ++ replicate 32 (Num (inject_Z overscan)).

Definition hdr (imagetyp : string) : gmap string string := {[ "imagetyp" := imagetyp ]}.

(** A row of 2080 columns whose value at column [j] is [j]. *)
Definition ramp_row : list px := (λ j, Num (inject_Z (Z.of_nat j))) <$> seq 0 2080.

Definition ramp : CCDData := mkCCDData [ramp_row; ramp_row] (hdr "BIAS") "adu".

Definition folder (raw : gmap string File) : World :=
  {| fs := {[ "python_imred_data" := raw; "reduced" := ∅ ]}; trace := [] |}.

(** Two bias frames whose overscan levels differ by 20 counts, and a flat. *)
Definition two_biases : World :=
  folder {[ "ccd.001.0.fits" := FitsFile (hdr "BIAS") [frame_row 1100 1000];
            "ccd.002.0.fits" := FitsFile (hdr "BIAS") [frame_row 1120 1020];
            "ccd.014.0.fits" := FitsFile (hdr "FLAT") [frame_row 9000 1010] ]}.

(** A bias frame of two rows followed by one of a single row. *)
Definition mixed_heights : World :=
  folder {[ "ccd.001.0.fits" := FitsFile (hdr "BIAS")
                                  [frame_row 1100 1000; frame_row 1100 1010];
            "ccd.002.0.fits" := FitsFile (hdr "BIAS") [frame_row 1120 1020] ]}.


(** The folder of [two_biases] without the output directory. *)
Definition no_outdir : World :=
  {| fs := delete "reduced" (fs two_biases); trace := [] |}.

(** The collection and the first bias of a folder, as the cells compute
    them. *)
Definition files_of (w : World) : ImageFileCollection :=
  match Notebook.cell_files w with
  | (inr files, _) => files
  | (inl _, _) => mkCollection "" []
  end.

Definition first_bias_of (w : World) : CCDData :=
  match Notebook.cell_first_bias (files_of w) w with
  | (inr ccd, _) => ccd
  | (inl _, _) => mkCCDData [] ∅ ""
  end.

End Sample.

(** ** More cells of the two notebooks *)

(** [reduced_images = ccdp.ImageFileCollection('reduced')], the cell that
    checks the output of the loop. *)
Definition cell_reduced_images : Py ImageFileCollection :=
  ImageFileCollection_init Notebook.calibrated_data.

Module Overscan.

(** [a[i, :]] for a Python integer [i]: a negative index counts from the last
    row; an index outside the array raises [IndexError] (the text of the
    message is not modelled). *)
Definition getitem_row (a : ndarray) (i : Z) : PyExn + list px :=
  let n := Z.of_nat (length a) in
  let k := if (i <? 0)%Z then (i + n)%Z else i in
  if ((0 <=? k)%Z && (k <? n)%Z)%bool
  then match a !! Z.to_nat k with
       | Some row => inr row
       | None => inl (IndexError "index is out of bounds for axis 0")
       end
  else inl (IndexError "index is out of bounds for axis 0").

(** The curves of the cell
<<
    plt.plot(bias_lfc.data[:, 2048:].mean(axis=1), label='Bias image')
    plt.plot(bias_lfc.data[0, :], label='Row 0')
    plt.plot(bias_lfc.data[1000, :], label='Row 1000')
    plt.plot(bias_lfc.data[-1, :], label='Last row')
>>
    in the order they are plotted, and the exception that stops the cell, if
    any. *)
Definition cell_plot_rows (bias_lfc : CCDData) : list (list px) * option PyExn :=
  let a := data bias_lfc in
  let overscan_mean := mean_axis1 (cols_from 2048 a) in
  match getitem_row a 0 with
  | inl e => ([overscan_mean], Some e)
  | inr row0 =>
      match getitem_row a 1000 with
      | inl e => ([overscan_mean; row0], Some e)
      | inr row1000 =>
          match getitem_row a (-1) with
          | inl e => ([overscan_mean; row0; row1000], Some e)
          | inr last_row => ([overscan_mean; row0; row1000; last_row], None)
          end
      end
  end.

End Overscan.

(** A folder whose first bias frame has two rows and whose second has
    three. *)
Definition two_and_three_rows : World :=
  Sample.folder
    {[ "ccd.001.0.fits" := FitsFile (Sample.hdr "BIAS")
                             [Sample.frame_row 1100 1000; Sample.frame_row 1100 1010];
       "ccd.002.0.fits" := FitsFile (Sample.hdr "BIAS")
                             [Sample.frame_row 1120 1020; Sample.frame_row 1120 1020;
                              Sample.frame_row 1120 1020] ]}.

(** A frame of three columns. *)
Definition narrow_frame : CCDData :=
  mkCCDData [[Num 5; Num 7; Num 9]] (Sample.hdr "BIAS") "adu".

(** * Properties *)

Close Scope string_scope.
Open Scope list_scope.

(** ** Arrays *)

Section Arrays.

Implicit Types (a : ndarray) (row : list px) (o : list px).

Lemma kept_cropped_row row : take 2048 row ++ drop 2048 row = row.
Proof. apply take_drop. Qed.

Lemma kept_cropped a : zip_with app (kept_region a) (cropped_region a) = a.
Proof.
  unfold kept_region, cropped_region, cols_upto, cols_from.
  induction a as [|row a IH]; [done|].
  rewrite !fmap_cons. cbn [zip_with]. by rewrite IH, take_drop.
Qed.

Lemma overscan_in_cropped_row row : drop 2055 row = drop 7 (drop 2048 row).
Proof. by rewrite drop_drop. Qed.

Lemma overscan_in_cropped a : overscan_region a = cols_from 7 (cropped_region a).
Proof.
  unfold overscan_region, cropped_region, cols_from.
  rewrite <- list_fmap_compose. apply list_fmap_ext.
  intros _ row _. cbn. apply overscan_in_cropped_row.
Qed.

Lemma length_row_sub row m : length (row_sub row m) = length row.
Proof. unfold row_sub. apply length_fmap. Qed.

Lemma widths_zip_row_sub a o :
  length a = length o → widths (zip_with row_sub a o) = widths a.
Proof.
  unfold widths. revert o. induction a as [|row a IH]; intros [|m o] Hlen;
    simplify_eq/=; [done|].
  by rewrite length_row_sub, IH.
Qed.

Lemma broadcast_sub_rows a o :
  length a = length o → broadcast_sub a o = Some (zip_with row_sub a o).
Proof. intros H. unfold broadcast_sub. by rewrite decide_True. Qed.

Lemma length_median_axis1 a : length (median_axis1 a) = length a.
Proof. unfold median_axis1. apply length_fmap. Qed.

Lemma broadcast_sub_own_overscan a :
  broadcast_sub a (median_axis1 (cols_from 2055 a))
  = Some (zip_with row_sub a (median_axis1 (overscan_region a))).
Proof.
  apply broadcast_sub_rows.
  unfold overscan_region, cols_from. by rewrite length_median_axis1, length_fmap.
Qed.

Lemma widths_cols_upto k a : widths (cols_upto k a) = (λ n, n `min` k) <$> widths a.
Proof.
  unfold widths, cols_upto. rewrite <- !list_fmap_compose.
  apply list_fmap_ext. intros _ row _. cbn. rewrite length_take. lia.
Qed.

Lemma widths_cols_from k a : widths (cols_from k a) = (λ n, n - k) <$> widths a.
Proof.
  unfold widths, cols_from. rewrite <- !list_fmap_compose.
  apply list_fmap_ext. intros _ row _. cbn. by rewrite length_drop.
Qed.

End Arrays.

(** ** The two steps on one image *)

Section Pipeline.

Implicit Types (src ccd out : CCDData).

Lemma cell_sample_unfold ccd : Notebook.cell_sample ccd = subtract_then_trim ccd ccd.
Proof. reflexivity. Qed.

Lemma subtract_then_trim_unfold src ccd :
  subtract_then_trim src ccd
  = match broadcast_sub (data ccd) (median_axis1 (overscan_region (data src))) with
    | Some d => inr (with_data ccd (kept_region d))
    | None => inl (ValueError "operands could not be broadcast together")
    end.
Proof.
  unfold subtract_then_trim, subtract_overscan, slice_cols_from, overscan_region.
  cbn [data with_data]. by destruct (broadcast_sub _ _).
Qed.

Lemma cell_sample_result ccd :
  Notebook.cell_sample ccd
  = inr (with_data ccd
           (kept_region (zip_with row_sub (data ccd)
                           (median_axis1 (overscan_region (data ccd)))))).
Proof.
  rewrite cell_sample_unfold, subtract_then_trim_unfold.
  pose proof (broadcast_sub_own_overscan (data ccd)) as H.
  unfold overscan_region in *. by rewrite H.
Qed.

Lemma subtract_overscan_meta ccd o m out :
  subtract_overscan ccd o m = inr out →
  header out = header ccd ∧ unit out = unit ccd.
Proof.
  unfold subtract_overscan. destruct (broadcast_sub _ _); [|done].
  by intros [= <-].
Qed.

(** When the overscan array has one value per row of the image, the result has
    the rows of the image and each row loses exactly its columns from 2048 on. *)
Lemma subtract_then_trim_shape src ccd :
  nrows (data src) = nrows (data ccd) →
  ∃ out, subtract_then_trim src ccd = inr out
         ∧ nrows (data out) = nrows (data ccd)
         ∧ widths (data out)
           = zip_with Nat.sub (widths (data ccd)) (widths (cropped_region (data ccd))).
Proof.
  intros Hrows. rewrite subtract_then_trim_unfold.
  assert (length (data ccd) = length (median_axis1 (overscan_region (data src)))) as Hlen.
  { unfold overscan_region, cols_from, nrows in *.
    by rewrite length_median_axis1, length_fmap. }
  rewrite (broadcast_sub_rows _ _ Hlen). eexists; split; [done|]. cbn [data with_data].
  split.
  - unfold kept_region, cols_upto, nrows.
    by rewrite length_fmap, length_zip_with_l_eq.
  - unfold kept_region, cropped_region.
    rewrite widths_cols_upto, widths_cols_from, (widths_zip_row_sub _ _ Hlen).
    generalize (widths (data ccd)). intros ws.
    induction ws as [|n ws IH]; [done|]. cbn. f_equal; [lia|done].
Qed.

(** An image too narrow to have columns from 2055 on is not rejected: the
    medians of the empty rows are [nan], and so is every pixel of the
    result. *)
Lemma narrow_image_is_not_rejected ccd :
  Forall (λ row, length row ≤ 2055) (data ccd) →
  Notebook.cell_sample ccd
  = inr (with_data ccd
           (kept_region ((λ row : list px, (λ _, NaN) <$> row) <$> data ccd))).
Proof.
  intros Hnarrow. rewrite cell_sample_result. do 3 f_equal.
  unfold overscan_region, cols_from, median_axis1.
  induction Hnarrow as [|row a Hrow _ IH]; [done|].
  rewrite !fmap_cons. cbn [zip_with]. rewrite IH. f_equal.
  rewrite drop_ge by done. unfold row_sub. apply list_fmap_ext.
  intros _ x _. by destruct x.
Qed.

(** The sample cells meet that condition on every image. *)
Lemma cell_sample_shape ccd :
  ∃ out, Notebook.cell_sample ccd = inr out
         ∧ nrows (data out) = nrows (data ccd)
         ∧ widths (data out)
           = zip_with Nat.sub (widths (data ccd)) (widths (cropped_region (data ccd))).
Proof. rewrite cell_sample_unfold. by apply subtract_then_trim_shape. Qed.

End Pipeline.

(** ** One turn of the folder loop *)

Section Turn.

Variable first_bias : CCDData.
Variables dir file_name : string.

Lemma for_ccds_cons rest w :
  for_ccds dir "adu" (Notebook.loop_body first_bias) (file_name :: rest) w
  = match turn first_bias dir file_name w with
    | (inr _, w') => for_ccds dir "adu" (Notebook.loop_body first_bias) rest w'
    | (inl e, w') => (inl e, w')
    end.
Proof.
  cbn [for_ccds]. unfold turn, bind.
  destruct (CCDData_read dir file_name "adu" w) as [[e|ccd] w1]; [done|].
  by destruct (Notebook.loop_body first_bias ccd file_name w1) as [[e|[]] w2].
Qed.

(** A turn that returns has read the file, found the output directory, found
    no file of that name in it, and left there the image cut and shifted. *)
Lemma turn_returns w w' :
  turn first_bias dir file_name w = (inr (), w') →
  ∃ h d out outdir,
    lookup_file w dir file_name = Some (FitsFile h d)
    ∧ subtract_then_trim first_bias (mkCCDData d h "adu") = inr out
    ∧ fs w !! Notebook.calibrated_data = Some outdir
    ∧ outdir !! file_name = None
    ∧ w' = {| fs := <[Notebook.calibrated_data :=
                       <[file_name := written h (data out)]> outdir]> (fs w);
              trace := trace w ++ events_of dir file_name |}.
Proof.
  unfold turn, bind, CCDData_read, Notebook.loop_body, subtract_then_trim.
  destruct (lookup_file w dir file_name) as [[h d|]|]; [|done..].
  unfold bind, log, print, log, ret, lift, CCDData_write. cbn [fs trace].
  destruct (subtract_overscan _ _ _) as [e|s] eqn:Hsub; cbn; [done|].
  destruct (fs w !! Notebook.calibrated_data) as [outdir|]; [|done].
  destruct (outdir !! file_name) eqn:Hfree; [done|].
  intros [= <-]. exists h, d, (slice_cols_upto 2048 s), outdir.
  destruct (subtract_overscan_meta _ _ _ _ Hsub) as [Hh Hu].
  destruct s as [sd sh su]. cbn in Hh, Hu. subst sh su.
  repeat split; try done.
  - by rewrite Hsub.
  - unfold events_of, written. cbn. by rewrite <- !app_assoc.
Qed.

(** A turn that raises has written nothing, and has read and printed at
    most. *)
Lemma turn_raises w e w' :
  turn first_bias dir file_name w = (inl e, w') →
  fs w' = fs w
  ∧ raised_by_library dir file_name e
  ∧ (trace w' = trace w
     ∨ trace w' = trace w ++ [EvRead dir file_name; EvPrint ("foo " ++ file_name)%string]).
Proof.
  unfold turn, bind, CCDData_read, Notebook.loop_body, raised_by_library.
  destruct (lookup_file w dir file_name) as [[h d|]|];
    [|intros [= <- <-]; by auto..].
  unfold bind, log, print, log, ret, lift, CCDData_write, subtract_overscan.
  cbn [fs trace].
  destruct (broadcast_sub _ _) as [s|]; cbn.
  2:{ intros [= <- <-]. cbn. split; [done|]. split; [by auto|].
      right. by rewrite <- app_assoc. }
  destruct (fs w !! Notebook.calibrated_data) as [outdir|].
  - destruct (outdir !! file_name); [|done].
    intros [= <- <-]. cbn. split; [done|]. split; [by auto 6|].
    right. by rewrite <- app_assoc.
  - intros [= <- <-]. cbn. split; [done|]. split; [by auto 6|].
    right. by rewrite <- app_assoc.
Qed.

End Turn.

(** ** The folder loop *)

Section Loop.

Variable first_bias : CCDData.
Variable dir : string.

Local Abbreviation loop := (for_ccds dir "adu" (Notebook.loop_body first_bias)).
Local Abbreviation reduced := Notebook.calibrated_data.

Lemma lookup_file_written w outdir f x dir' g :
  fs w !! reduced = Some outdir →
  lookup_file {| fs := <[reduced := <[f := x]> outdir]> (fs w); trace := trace w |} dir' g
  = if decide (dir' = reduced ∧ g = f) then Some x else lookup_file w dir' g.
Proof.
  intros Hout. unfold lookup_file. cbn [fs].
  destruct (decide (dir' = reduced)) as [->|Hd].
  - rewrite lookup_insert_eq, Hout. cbn.
    destruct (decide (g = f)) as [->|Hg].
    + rewrite lookup_insert_eq. by rewrite decide_True.
    + rewrite lookup_insert_ne by done. rewrite decide_False; [done|]. by intros [_ ?].
  - rewrite lookup_insert_ne by done. rewrite decide_False; [done|]. by intros [? _].
Qed.

Lemma lookup_file_trace w tr dir' g :
  lookup_file {| fs := fs w; trace := tr |} dir' g = lookup_file w dir' g.
Proof. reflexivity. Qed.

Lemma loop_app pre post w :
  loop (pre ++ post) w
  = match loop pre w with
    | (inr _, w1) => loop post w1
    | (inl e, w1) => (inl e, w1)
    end.
Proof.
  revert w. induction pre as [|f pre IH]; intros w; [done|].
  rewrite <- app_comm_cons, !for_ccds_cons.
  destruct (turn first_bias dir f w) as [[e|[]] w1]; [done|]. apply IH.
Qed.

(** Whatever the outcome, the effects of the loop are a prefix of the effects
    of the successive turns, in the order of the names: all of them when the
    loop returns, not all of them when it raises. *)
Lemma loop_trace names w :
  ∃ tr, trace (snd (loop names w)) = trace w ++ tr
        ∧ tr `prefix_of` flat_map (events_of dir) names
        ∧ match fst (loop names w) with
          | inr _ => tr = flat_map (events_of dir) names
          | inl _ => length tr < length (flat_map (events_of dir) names)
          end.
Proof.
  revert w. induction names as [|f names IH]; intros w.
  { exists []. cbn. by rewrite app_nil_r. }
  rewrite for_ccds_cons.
  destruct (turn first_bias dir f w) as [[e|[]] w1] eqn:Hturn.
  - destruct (turn_raises _ _ _ _ _ _ Hturn) as (_ & _ & [Htr|Htr]);
      cbn [fst snd flat_map].
    + exists []. rewrite app_nil_r. split; [done|]. split; [apply prefix_nil|].
      cbn. lia.
    + eexists. split; [exact Htr|]. split.
      * apply prefix_app_r. unfold events_of. by exists [EvWrite reduced f].
      * cbn. lia.
  - destruct (turn_returns _ _ _ _ _ Hturn) as (h & d & out & outdir & _ & _ & _ & _ & ->).
    destruct (IH {| fs := <[reduced := <[f := written h (data out)]> outdir]> (fs w);
                    trace := trace w ++ events_of dir f |}) as (tr & Htr & Hpre & Hall).
    exists (events_of dir f ++ tr). rewrite Htr. cbn [trace flat_map]. split.
    + by rewrite app_assoc.
    + split; [by apply prefix_app|].
      destruct (fst (for_ccds _ _ _ _ _)); [|by rewrite Hall].
      rewrite !length_app. lia.
Qed.

(** In the effects of the successive turns, the event at position [p] is
    step [p mod 3] (read, print, write) of the name at position [p / 3]. *)
Lemma events_lookup names : ∀ p e,
  flat_map (events_of dir) names !! p = Some e →
  ∃ f, names !! (p / 3) = Some f ∧ events_of dir f !! (p mod 3) = Some e.
Proof.
  induction names as [|f names IH]; intros p e; [done|].
  cbn [flat_map]. destruct (decide (p < 3)) as [Hlt|Hge].
  - rewrite lookup_app_l by (cbn; lia). intros He. exists f.
    rewrite Nat.div_small, Nat.mod_small by lia. done.
  - rewrite lookup_app_r by (cbn; lia). cbn [length events_of].
    intros (g & Hg & He)%IH. exists g.
    replace p with ((p - 3) + 1 * 3) at 1 2 by lia.
    rewrite Nat.div_add, Nat.Div0.mod_add by lia.
    rewrite Nat.add_1_r. done.
Qed.


(** A loop that returns went through distinct names; it left the effects of
    all the turns, in order; for each name it found no output of that name,
    read the image from the collection's directory and left the calibrated
    image under the same name in the output directory; it left every other
    file as it was. *)
Lemma loop_returns names : ∀ w w',
  loop names w = (inr (), w') →
  NoDup names
  ∧ trace w' = trace w ++ flat_map (events_of dir) names
  ∧ (∀ f, f ∈ names →
       lookup_file w reduced f = None
       ∧ ∃ h d out,
           lookup_file w dir f = Some (FitsFile h d)
           ∧ subtract_then_trim first_bias (mkCCDData d h "adu") = inr out
           ∧ lookup_file w' reduced f = Some (written h (data out)))
  ∧ (∀ dir' g, g ∉ names ∨ dir' ≠ reduced →
       lookup_file w' dir' g = lookup_file w dir' g).
Proof.
  induction names as [|f names IH]; intros w w'.
  { intros [= <-]. cbn. rewrite app_nil_r. split; [constructor|].
    split; [done|]. split; [|done].
    intros g Hg. by apply elem_of_nil in Hg. }
  rewrite for_ccds_cons.
  destruct (turn first_bias dir f w) as [[e|[]] w1] eqn:Hturn; [done|].
  destruct (turn_returns _ _ _ _ _ Hturn)
    as (h & d & out & outdir & Hread & Hcal & Hout & Hfree & ->).
  intros Hrest. destruct (IH _ _ Hrest) as (Hnd & Htr & Hin & Hothers).
  assert (∀ dir' g, lookup_file
            {| fs := <[reduced := <[f := written h (data out)]> outdir]> (fs w);
               trace := trace w ++ events_of dir f |} dir' g
          = if decide (dir' = reduced ∧ g = f) then Some (written h (data out))
            else lookup_file w dir' g) as Hw1.
  { intros dir' g. by rewrite <- (lookup_file_written w outdir f _ dir' g Hout). }
  assert (f ∉ names) as Hfresh.
  { intros Hf. destruct (Hin f Hf) as [Hnone _].
    rewrite Hw1, decide_True in Hnone; done. }
  assert (lookup_file w reduced f = None) as Hfnone.
  { unfold lookup_file. by rewrite Hout. }
  split; [|split; [|split]].
  - by constructor.
  - rewrite Htr. cbn [trace flat_map]. by rewrite app_assoc.
  - intros g [->|Hg]%elem_of_cons.
    + split; [done|]. exists h, d, out. repeat split; try done.
      rewrite Hothers by auto. rewrite Hw1. by rewrite decide_True.
    + assert (g ≠ f) as Hne by (intros ->; done).
      destruct (Hin g Hg) as (Hnone & h' & d' & out' & Hr' & Hc' & Hw').
      rewrite Hw1, decide_False in Hnone by (intros [_ ?]; done).
      rewrite Hw1, decide_False in Hr' by (intros [_ ?]; done).
      split; [done|]. by exists h', d', out'.
  - intros dir' g Hor. rewrite Hothers.
    + rewrite Hw1. rewrite decide_False; [done|].
      intros [-> ->]. destruct Hor as [Hg|Hd]; [|done].
      apply Hg. by left.
    + destruct Hor as [Hg|Hd]; [left|by right].
      intros Hg'. apply Hg. by right.
Qed.

End Loop.

(** ** Pixels of the regions *)

Section Pixels.

Implicit Types (a : ndarray) (i j k : nat).




End Pixels.

(** ** Creating the output directory *)

(** C9. The cell that creates the output directory raises [TypeError] in every
    state of the disk, whether or not [reduced] exists, and changes nothing:
    [exists_ok] is not a parameter of [Path.mkdir]. *)
Theorem C9_mkdir_cell_always_raises (w : World) :
  Notebook.cell_mkdir w
  = (inl (TypeError "mkdir() got an unexpected keyword argument 'exists_ok'"), w).
Proof. reflexivity. Qed.

(** With the parameter spelled as the signature has it, the call returns in
    every state and the directory exists afterwards. *)
Lemma mkdir_exist_ok_returns (w : World) :
  ∃ w', Path_mkdir Notebook.calibrated_data [("exist_ok", VBool true)] w = (inr (), w')
        ∧ is_Some (fs w' !! Notebook.calibrated_data).
Proof.
  unfold Path_mkdir, bind. cbn.
  rewrite decide_True by (unfold mkdir_params; set_solver). cbn.
  destruct (fs w !! Notebook.calibrated_data) as [d|] eqn:Hd.
  - exists w. rewrite lookup_insert_eq. split; [done|]. by rewrite Hd.
  - eexists. split; [done|]. cbn. by rewrite lookup_insert_eq.
Qed.

(** ** The crop boundary and the header's section *)



(** ** The subtraction region and the cropped region *)

(** C3 as stated fails on a frame of 2080 columns: the region whose median is
    subtracted has 25 columns, the region the crop removes has 32. *)
Lemma C3_regions_differ_on_ramp :
  widths (overscan_region (data Sample.ramp)) = [25; 25]
  ∧ widths (cropped_region (data Sample.ramp)) = [32; 32]
  ∧ overscan_region (data Sample.ramp) ≠ cropped_region (data Sample.ramp).
Proof.
  assert (widths (overscan_region (data Sample.ramp)) = [25; 25]) as H1
    by (vm_compute; reflexivity).
  assert (widths (cropped_region (data Sample.ramp)) = [32; 32]) as H2
    by (vm_compute; reflexivity).
  split; [done|]. split; [done|].
  intros Heq. rewrite Heq, H2 in H1. discriminate H1.
Qed.

(** C3 (amended). For every image, the sample cells subtract the per-row
    median of the columns from 2055 on and keep the columns before 2048; the
    columns the crop leaves out are those from 2048 on, and the subtraction
    region is that cropped region without its first 7 columns.  The loop body
    takes the same two slices, the first one from [first_bias]. *)
Theorem C3_subtraction_region_within_cropped (src ccd : CCDData) :
  Notebook.cell_sample ccd
  = inr (with_data ccd
           (kept_region (zip_with row_sub (data ccd)
                           (median_axis1 (overscan_region (data ccd))))))
  ∧ subtract_then_trim src ccd
    = match broadcast_sub (data ccd) (median_axis1 (overscan_region (data src))) with
      | Some d => inr (with_data ccd (kept_region d))
      | None => inl (ValueError "operands could not be broadcast together")
      end
  ∧ zip_with app (kept_region (data ccd)) (cropped_region (data ccd)) = data ccd
  ∧ overscan_region (data src) = cols_from 7 (cropped_region (data src))
  ∧ cropped_region (data src)
    = zip_with app (cols_upto 7 (cropped_region (data src))) (overscan_region (data src)).
Proof.
  split; [apply cell_sample_result|].
  split; [apply subtract_then_trim_unfold|].
  split; [apply kept_cropped|].
  split; [apply overscan_in_cropped|].
  rewrite overscan_in_cropped. unfold cols_upto, cols_from.
  induction (cropped_region (data src)) as [|row a IH]; [done|].
  rewrite !fmap_cons. cbn [zip_with]. by rewrite <- IH, take_drop.
Qed.



(** ** The order of the effects *)

(** C8. The names the loop goes through are those of the collection's table,
    fixed when the loop starts, whatever the disk holds by then.  The effects
    of the loop are a prefix of read, print, write for the first name, then
    read, print, write for the second, and so on: the event at position [p]
    is step [p mod 3] of the name at position [p / 3], so every step of an
    image comes before every step of the next, its write before the next
    read.  The prefix is the whole sequence when the loop returns, and not
    the whole when it raises. *)
Theorem C8_turns_strictly_in_sequence (files : ImageFileCollection)
    (first_bias : CCDData) (w : World) :
  let names := Notebook.raw_biases files in
  let all := flat_map (events_of (location files)) names in
  let result := Notebook.cell_loop files first_bias w in
  ∃ tr, trace (snd result) = trace w ++ tr
        ∧ tr `prefix_of` all
        ∧ match fst result with
          | inr _ => tr = all
          | inl _ => length tr < length all
          end
        ∧ ∀ p e, tr !! p = Some e →
            ∃ f, names !! (p / 3) = Some f
                 ∧ events_of (location files) f !! (p mod 3) = Some e.
Proof.
  cbn zeta. unfold Notebook.cell_loop, ccds_loop.
  destruct (loop_trace first_bias (location files) (Notebook.raw_biases files) w)
    as (tr & Htr & Hpre & Hall).
  exists tr. split; [done|]. split; [done|]. split; [done|].
  intros p e Hp. apply events_lookup.
  destruct Hpre as [rest ->]. by apply lookup_app_l_Some.
Qed.

(** ** Exceptions *)



(** ** The collection and its filter *)

Section Collection.

Implicit Types (files : ImageFileCollection) (hdr : gmap string string).

Lemma elem_of_files_filtered files key value f :
  f ∈ files_filtered files key value
  ↔ ∃ hdr, (f, hdr) ∈ summary files ∧ keyword_matches key value hdr = true.
Proof.
  unfold files_filtered. rewrite list_elem_of_fmap. split.
  - intros ([g hdr] & -> & [Hm Hin]%list_elem_of_filter). cbn in *.
    exists hdr. split; [done|]. by apply Is_true_true.
  - intros (hdr & Hin & Hm). exists (f, hdr). split; [done|].
    apply list_elem_of_filter. split; [|done]. cbn. by apply Is_true_true.
Qed.

(** The filter [imagetyp='BIAS'] passes the headers whose image type reads
    "bias" once put in lower case. *)
Lemma keyword_matches_BIAS hdr :
  keyword_matches "imagetyp" "BIAS" hdr = true
  ↔ ∃ v, hdr !! "imagetyp"%string = Some v ∧ lower v = "bias"%string.
Proof.
  unfold keyword_matches. destruct (hdr !! "imagetyp"%string) as [v|].
  - rewrite decide_False by done. rewrite bool_decide_eq_true.
    change (lower "BIAS") with "bias"%string. split.
    + intros Hv. by exists v.
    + by intros (v' & [= <-] & Hv).
  - split; [done|]. by intros (v & ? & _).
Qed.

(** The table of a new collection has one row for each FITS file that the
    directory holds at that moment. *)
Lemma summary_init dir w files w' :
  ImageFileCollection_init dir w = (inr files, w') →
  w' = w ∧ location files = dir
  ∧ ∀ f hdr, (f, hdr) ∈ summary files
             ↔ ∃ d, lookup_file w dir f = Some (FitsFile hdr d).
Proof.
  unfold ImageFileCollection_init, lookup_file.
  destruct (fs w !! dir) as [entries|]; [|done].
  intros [= <- <-]. split; [done|]. split; [done|]. cbn.
  intros f hdr. rewrite merge_sort_Permutation, list_elem_of_omap. split.
  - intros ([g [h d|]] & Hin%elem_of_map_to_list & Hrow); simplify_eq/=.
    by exists d.
  - intros (d & Hd). exists (f, FitsFile hdr d). split; [|done].
    by apply elem_of_map_to_list.
Qed.

End Collection.

(** ** Counting the effects *)

Section Counting.

Variable dir : string.

Lemma count_event_app e tr1 tr2 :
  count_event e (tr1 ++ tr2) = count_event e tr1 + count_event e tr2.
Proof. unfold count_event. by rewrite filter_app, length_app. Qed.

Lemma count_read_in_turn f g :
  count_event (EvRead dir f) (events_of dir g) = if decide (f = g) then 1 else 0.
Proof.
  unfold count_event, events_of. rewrite !filter_cons, filter_nil.
  repeat case_decide; simplify_eq; done.
Qed.

Lemma count_write_in_turn f g :
  count_event (EvWrite Notebook.calibrated_data f) (events_of dir g)
  = if decide (f = g) then 1 else 0.
Proof.
  unfold count_event, events_of. rewrite !filter_cons, filter_nil.
  repeat case_decide; simplify_eq; done.
Qed.

Lemma count_in_turns e f names :
  (∀ g, count_event e (events_of dir g) = if decide (f = g) then 1 else 0) →
  NoDup names →
  count_event e (flat_map (events_of dir) names) = if decide (f ∈ names) then 1 else 0.
Proof.
  intros Hturn. induction 1 as [|g names Hg Hnd IH]; [done|].
  cbn [flat_map]. rewrite count_event_app, Hturn, IH.
  destruct (decide (f = g)) as [->|Hne].
  - rewrite (decide_False (P := g ∈ names)) by done.
    rewrite decide_True; [done|by left].
  - destruct (decide (f ∈ names)) as [Hin|Hnot].
    + rewrite decide_True; [done|by right].
    + rewrite decide_False; [done|]. by intros [->|?]%elem_of_cons.
Qed.

End Counting.

(** ** What the loop does to each image *)

(** C5. When the folder loop returns, each selected image has been read once
    and written once; the file written for it holds the array obtained from
    the array read by the overscan subtraction first and the crop to the
    columns before 2048 second, both of them functions of their arguments
    alone. *)
Theorem C5_read_once_two_steps_written_once (files : ImageFileCollection)
    (first_bias : CCDData) (w w' : World) :
  Notebook.cell_loop files first_bias w = (inr (), w') →
  ∃ tr, trace w' = trace w ++ tr
        ∧ ∀ f, f ∈ Notebook.raw_biases files →
            count_event (EvRead (location files) f) tr = 1
            ∧ count_event (EvWrite Notebook.calibrated_data f) tr = 1
            ∧ ∃ h d s,
                lookup_file w (location files) f = Some (FitsFile h d)
                ∧ subtract_overscan (mkCCDData d h "adu")
                    (slice_cols_from 2055 first_bias) true = inr s
                ∧ lookup_file w' Notebook.calibrated_data f
                  = Some (written h (data (trim_image (slice_cols_upto 2048 s) None))).
Proof.
  unfold Notebook.cell_loop, ccds_loop, Notebook.raw_biases.
  intros (Hnd & Htr & Hin & _)%loop_returns.
  eexists. split; [exact Htr|]. intros f Hf.
  rewrite (count_in_turns _ _ f _ (λ g, count_read_in_turn _ f g) Hnd).
  rewrite (count_in_turns _ _ f _ (λ g, count_write_in_turn _ f g) Hnd).
  rewrite !decide_True by done. split; [done|]. split; [done|].
  destruct (Hin f Hf) as (_ & h & d & out & Hread & Hcal & Hout).
  unfold subtract_then_trim in Hcal.
  destruct (subtract_overscan _ _ _) as [e|s] eqn:Hsub; [done|].
  injection Hcal as <-. by exists h, d, s.
Qed.

Lemma C5_witness :
  let files := Sample.files_of Sample.two_biases in
  let first_bias := Sample.first_bias_of Sample.two_biases in
  ∃ tr, trace (snd (Notebook.cell_loop files first_bias Sample.two_biases)) = [] ++ tr
        ∧ count_event (EvRead "python_imred_data" "ccd.002.0.fits") tr = 1
        ∧ count_event (EvWrite "reduced" "ccd.002.0.fits") tr = 1.
Proof.
  intros files first_bias.
  assert (Notebook.cell_loop files first_bias Sample.two_biases
          = (inr (), snd (Notebook.cell_loop files first_bias Sample.two_biases)))
    as Hrun by (vm_compute; reflexivity).
  destruct (C5_read_once_two_steps_written_once _ _ _ _ Hrun) as (tr & Htr & Hall).
  assert ("ccd.002.0.fits"%string ∈ Notebook.raw_biases files) as Hin.
  { assert (Notebook.raw_biases files = ["ccd.001.0.fits"; "ccd.002.0.fits"]%string)
      as -> by (vm_compute; reflexivity).
    apply elem_of_cons. right. apply elem_of_cons. by left. }
  destruct (Hall _ Hin) as (H1 & H2 & _).
  exists tr. exact (conj Htr (conj H1 H2)).
Defined.

(** ** Selection by image type *)




(** ** Which overscan the loop subtracts *)

(** Whatever image the loop is at, the values it subtracts are the per-row
    medians of the columns from 2055 on of [first_bias]. *)
Lemma loop_uses_first_bias_overscan (files : ImageFileCollection)
    (first_bias : CCDData) (w w' : World) :
  Notebook.cell_loop files first_bias w = (inr (), w') →
  ∀ f, f ∈ Notebook.raw_biases files →
    ∃ h d shifted,
      lookup_file w (location files) f = Some (FitsFile h d)
      ∧ broadcast_sub d (median_axis1 (overscan_region (data first_bias))) = Some shifted
      ∧ lookup_file w' Notebook.calibrated_data f = Some (written h (kept_region shifted)).
Proof.
  unfold Notebook.cell_loop, ccds_loop, Notebook.raw_biases.
  intros (_ & _ & Hin & _)%loop_returns f Hf.
  destruct (Hin f Hf) as (_ & h & d & out & Hread & Hcal & Hout).
  rewrite subtract_then_trim_unfold in Hcal. cbn [data] in Hcal.
  destruct (broadcast_sub _ _) as [shifted|] eqn:Hsub; [|done].
  injection Hcal as <-. by exists h, d, shifted.
Qed.

(** C1. In a folder of two bias frames with overscan levels 1000 and 1020, the
    first frame is [first_bias]; the loop writes the second frame shifted by
    1000, the overscan median of the first frame, where the sample cells on
    that same frame shift it by 1020, the median of its own overscan. *)
Theorem C1_loop_subtracts_overscan_of_first_bias :
  let w := Sample.two_biases in
  let second := mkCCDData [Sample.frame_row 1120 1020] (Sample.hdr "BIAS") "adu" in
  lookup_file w "python_imred_data" "ccd.002.0.fits"
  = Some (FitsFile (header second) (data second))
  ∧ data (Sample.first_bias_of w) = [Sample.frame_row 1100 1000]
  ∧ median_axis1 (overscan_region (data (Sample.first_bias_of w))) = [Num 1000]
  ∧ median_axis1 (overscan_region (data second)) = [Num 1020]
  ∧ fst (Notebook.cells_from_files w) = inr ()
  ∧ lookup_file (snd (Notebook.cells_from_files w)) "reduced" "ccd.002.0.fits"
    = Some (written (header second) [replicate 2048 (Num 120)])
  ∧ Notebook.cell_sample second = inr (with_data second [replicate 2048 (Num 100)]).
Proof. cbn zeta. repeat split; by vm_compute. Qed.

(** ** Rows of the written image *)

(** C2. In a folder whose first bias frame has two rows and whose second has
    one, the loop writes for the second a file of two rows: the single row is
    broadcast against the two overscan medians of [first_bias]. *)
Theorem C2_single_row_image_is_written_with_two_rows :
  let w := Sample.mixed_heights in
  nrows (data (Sample.first_bias_of w)) = 2
  ∧ lookup_file w "python_imred_data" "ccd.002.0.fits"
    = Some (FitsFile (Sample.hdr "BIAS") [Sample.frame_row 1120 1020])
  ∧ fst (Notebook.cells_from_files w) = inr ()
  ∧ lookup_file (snd (Notebook.cells_from_files w)) "reduced" "ccd.002.0.fits"
    = Some (written (Sample.hdr "BIAS")
              [replicate 2048 (Num 120); replicate 2048 (Num 110)]).
Proof. cbn zeta. repeat split; by vm_compute. Qed.

(** ** The sample cells on every image *)

Section SampleCells.

Implicit Types (ccd : CCDData) (row : list px) (q : Q).

Lemma px_values_replicate n q : px_values (replicate n (Num q)) = Some (replicate n q).
Proof. induction n as [|n IH]; [done|]. cbn. by rewrite IH. Qed.

Lemma sort_Q_replicate n q : sort_Q (replicate n q) = replicate n q.
Proof.
  unfold sort_Q. induction n as [|n IH]; [done|]. cbn [replicate foldr].
  rewrite IH. destruct n as [|n]; [done|]. cbn [replicate insert_sorted].
  assert (Qle_bool q q = true) as -> by (apply Qle_bool_iff, Qle_refl). done.
Qed.

Lemma nth_replicate_lt n q i : i < n → nth i (replicate n q) 0%Q = q.
Proof.
  revert i. induction n as [|n IH]; intros [|i] Hi; cbn; try done; try lia.
  apply IH. lia.
Qed.

(** The median of a non-empty row of equal numbers is that number. *)
Lemma median_replicate n q : median (replicate (S n) (Num q)) = Num (Qred q).
Proof.
  unfold median. rewrite px_values_replicate. cbn [replicate].
  change (q :: replicate n q) with (replicate (S n) q).
  rewrite sort_Q_replicate, length_replicate.
  assert (S n / 2 < S n) as Hhalf by (apply Nat.div_lt; lia).
  destruct (Nat.even (S n)).
  - rewrite !nth_replicate_lt by lia. f_equal. apply Qred_complete. field.
  - by rewrite nth_replicate_lt.
Qed.


(** X2. An image with no column from 2055 on is not rejected by the sample
    cells: the overscan slice is empty, its medians are [nan], and every pixel
    of the image that results is [nan]. *)
Theorem X2_narrow_image_gives_nan ccd :
  Forall (λ row, length row ≤ 2055) (data ccd) →
  ∃ out, Notebook.cell_sample ccd = inr out
         ∧ widths (data out) = (λ n, n `min` 2048) <$> widths (data ccd)
         ∧ ∀ i j x, pixel (data out) i j = Some x → x = NaN.
Proof.
  intros Hnarrow. rewrite (narrow_image_is_not_rejected _ Hnarrow).
  eexists. split; [done|]. cbn [data with_data]. split.
  - unfold kept_region. rewrite widths_cols_upto. f_equal.
    unfold widths. rewrite <- list_fmap_compose. apply list_fmap_ext.
    intros _ row _. cbn. by rewrite length_fmap.
  - intros i j x. unfold kept_region, cols_upto, pixel.
    rewrite !list_lookup_fmap. destruct (data ccd !! i) as [row|]; [|done]. cbn.
    intros [Hx _]%lookup_take_Some. rewrite list_lookup_fmap in Hx.
    destruct (row !! j); by simplify_eq/=.
Qed.

Lemma X2_witness :
  ∃ out, Notebook.cell_sample narrow_frame = inr out
         ∧ data out = [[NaN; NaN; NaN]].
Proof.
  assert (Forall (λ row, length row ≤ 2055) (data narrow_frame)) as Hnarrow.
  { apply (bool_decide_unpack _). vm_compute. exact I. }
  destruct (X2_narrow_image_gives_nan narrow_frame Hnarrow) as (out & Hout & _ & _).
  exists out. split; [exact Hout|].
  assert (Notebook.cell_sample narrow_frame
          = inr (with_data narrow_frame [[NaN; NaN; NaN]])) as Hrun
    by (vm_compute; reflexivity).
  rewrite Hrun in Hout. by injection Hout as <-.
Defined.

(** X3. When the columns from 2055 on of each row hold one number, the level
    of that row, the sample cells shift every pixel of the row by that level
    and keep the first 2048 columns: the zero point moves and nothing else
    changes. *)
Theorem X3_flat_overscan_shifts_by_level ccd (levels : list Q) :
  Forall2 (λ row level, ∃ k, drop 2055 row = replicate (S k) (Num level))
    (data ccd) levels →
  Notebook.cell_sample ccd
  = inr (with_data ccd
           (kept_region (zip_with row_sub (data ccd) ((λ level, Num (Qred level)) <$> levels)))).
Proof.
  intros Hflat. rewrite cell_sample_result. do 4 f_equal.
  unfold overscan_region, cols_from, median_axis1.
  induction Hflat as [|row level a ls [k Hk] _ IH]; [done|].
  rewrite !fmap_cons, IH, Hk. by rewrite median_replicate.
Qed.

Lemma X3_witness :
  Notebook.cell_sample (mkCCDData [Sample.frame_row 1100 1000] (Sample.hdr "BIAS") "adu")
  = inr (mkCCDData [replicate 2048 (Num 100)] (Sample.hdr "BIAS") "adu").
Proof.
  rewrite (X3_flat_overscan_shifts_by_level _ [1000%Q]).
  - vm_compute. reflexivity.
  - constructor; [|constructor]. exists 24. vm_compute. reflexivity.
Defined.

End SampleCells.

(** ** The table of a collection *)

Section Table.

Implicit Types (files : ImageFileCollection) (w : World).

Lemma summary_names_sublist (entries : list (string * File)) :
  (omap summary_row entries).*1 `sublist_of` entries.*1.
Proof.
  induction entries as [|[f [h d|]] entries IH]; cbn; [done| |].
  - by apply sublist_skip.
  - by apply sublist_cons.
Qed.


Lemma summary_names_NoDup dir w files w' :
  ImageFileCollection_init dir w = (inr files, w') → NoDup (summary files).*1.
Proof.
  unfold ImageFileCollection_init.
  destruct (fs w !! dir) as [entries|]; [|done]. intros [= <- _]. cbn.
  rewrite merge_sort_Permutation.
  eapply sublist_NoDup; [|apply summary_names_sublist].
  apply NoDup_fst_map_to_list.
Qed.

Lemma files_filtered_NoDup files key value :
  NoDup (summary files).*1 → NoDup (files_filtered files key value).
Proof.
  intros Hnd. unfold files_filtered.
  eapply sublist_NoDup; [exact Hnd|]. apply fmap_sublist, sublist_filter.
Qed.




End Table.

(** ** Outcomes of one turn *)

Section TurnOutcome.

Variable first_bias : CCDData.
Variables dir f : string.

Local Abbreviation reduced := Notebook.calibrated_data.

(** The world after the read and the print of a turn. *)
Local Abbreviation read_and_printed w :=
  {| fs := fs w; trace := trace w ++ [EvRead dir f; EvPrint ("foo " ++ f)%string] |}.

Lemma turn_found w h d :
  lookup_file w dir f = Some (FitsFile h d) →
  turn first_bias dir f w
  = match broadcast_sub d (median_axis1 (overscan_region (data first_bias))) with
    | None => (inl (ValueError "operands could not be broadcast together"),
               read_and_printed w)
    | Some shifted =>
        match fs w !! reduced with
        | None => (inl (FileNotFoundError reduced f), read_and_printed w)
        | Some outdir =>
            match outdir !! f with
            | Some _ => (inl (OSError reduced f), read_and_printed w)
            | None =>
                (inr (),
                 {| fs := <[reduced := <[f := written h (kept_region shifted)]> outdir]> (fs w);
                    trace := trace w ++ events_of dir f |})
            end
        end
    end.
Proof.
  intros Hfound.
  unfold turn, bind, CCDData_read, Notebook.loop_body. rewrite Hfound.
  unfold bind, log, print, log, ret, lift, CCDData_write, subtract_overscan.
  unfold slice_cols_from, slice_cols_upto, trim_image, overscan_region, kept_region,
    written, events_of.
  cbn [fs trace data header unit with_data].
  destruct (broadcast_sub _ _) as [shifted|]; unfold ret, raise;
    cbn [fs trace data header unit with_data].
  2:{ by rewrite <- app_assoc. }
  destruct (fs w !! reduced) as [outdir|]; [|by rewrite <- app_assoc].
  destruct (outdir !! f); [by rewrite <- app_assoc|].
  by rewrite <- !app_assoc.
Qed.

Lemma broadcast_sub_None (a : ndarray) (o : list px) :
  length a ≠ length o → length o ≠ 1 → length a ≠ 1 → broadcast_sub a o = None.
Proof.
  intros Hne Ho Ha. unfold broadcast_sub. rewrite decide_False by done.
  destruct o as [|m [|m' o]], a as [|row [|row' a]]; done.
Qed.

End TurnOutcome.

(** ** Outcomes of the folder loop *)

Section LoopOutcome.

Variable first_bias : CCDData.
Variable dir : string.

Local Abbreviation loop := (for_ccds dir "adu" (Notebook.loop_body first_bias)).
Local Abbreviation reduced := Notebook.calibrated_data.

Lemma lookup_file_insert w outdir f x tr d g :
  fs w !! reduced = Some outdir →
  lookup_file {| fs := <[reduced := <[f := x]> outdir]> (fs w); trace := tr |} d g
  = if decide (d = reduced ∧ g = f) then Some x else lookup_file w d g.
Proof. exact (lookup_file_written w outdir f x d g). Qed.

Lemma lookup_file_same_fs w w' d g : fs w' = fs w → lookup_file w' d g = lookup_file w d g.
Proof. intros Hfs. unfold lookup_file. by rewrite Hfs. Qed.

(** Whatever its outcome, the loop keeps every file that was on disk, touches
    no directory but the output directory, and removes no directory. *)
Lemma loop_keeps_files names : ∀ w,
  (∀ d g x, lookup_file w d g = Some x → lookup_file (snd (loop names w)) d g = Some x)
  ∧ (∀ d g, d ≠ reduced → lookup_file (snd (loop names w)) d g = lookup_file w d g)
  ∧ (∀ d, is_Some (fs w !! d) → is_Some (fs (snd (loop names w)) !! d)).
Proof.
  induction names as [|f names IH]; intros w; [done|].
  rewrite for_ccds_cons.
  destruct (turn first_bias dir f w) as [[e|[]] w1] eqn:Hturn.
  - destruct (turn_raises _ _ _ _ _ _ Hturn) as (Hfs & _ & _). cbn [snd].
    split; [|split].
    + intros d g x. by rewrite (lookup_file_same_fs _ _ d g Hfs).
    + intros d g _. by apply lookup_file_same_fs.
    + intros d. by rewrite Hfs.
  - destruct (turn_returns _ _ _ _ _ Hturn)
      as (h & d0 & out & outdir & _ & _ & Hout & Hfree & ->).
    destruct (IH {| fs := <[reduced := <[f := written h (data out)]> outdir]> (fs w);
                    trace := trace w ++ events_of dir f |}) as (Hkeep & Hraw & Hdirs).
    split; [|split].
    + intros d g x Hx. apply Hkeep. rewrite (lookup_file_insert _ _ _ _ _ _ _ Hout).
      rewrite decide_False; [done|]. intros [-> ->].
      unfold lookup_file in Hx. rewrite Hout in Hx. cbn in Hx. congruence.
    + intros d g Hd. rewrite Hraw by done.
      rewrite (lookup_file_insert _ _ _ _ _ _ _ Hout).
      rewrite decide_False; [done|]. by intros [? _].
    + intros d Hd. apply Hdirs. cbn [fs].
      destruct (decide (d = reduced)) as [->|Hne].
      * rewrite lookup_insert_eq. by eexists.
      * by rewrite lookup_insert_ne.
Qed.

(** The loop returns when the names are distinct, the output directory exists
    and holds none of them, and each name is a FITS file of the collection's
    directory with as many rows as [first_bias]. *)
Lemma loop_succeeds names : ∀ w,
  NoDup names →
  dir ≠ reduced →
  is_Some (fs w !! reduced) →
  (∀ f, f ∈ names →
     lookup_file w reduced f = None
     ∧ ∃ h d, lookup_file w dir f = Some (FitsFile h d)
              ∧ nrows d = nrows (data first_bias)) →
  ∃ w', loop names w = (inr (), w').
Proof.
  induction names as [|f names IH]; intros w Hnd Hdir [outdir Hout] Hall.
  { by eexists. }
  apply NoDup_cons in Hnd as [Hfresh Hnd].
  destruct (Hall f) as (Hnone & h & d & Hfound & Hrows); [by left|].
  rewrite for_ccds_cons, (turn_found _ _ _ _ _ _ Hfound).
  rewrite broadcast_sub_rows, Hout.
  2:{ unfold overscan_region, cols_from, nrows in *.
      by rewrite length_median_axis1, length_fmap. }
  unfold lookup_file in Hnone. rewrite Hout in Hnone. cbn in Hnone. rewrite Hnone.
  apply IH; [done|done| |].
  - cbn [fs]. rewrite lookup_insert_eq. by eexists.
  - intros g Hg. assert (g ≠ f) as Hne by (intros ->; done).
    destruct (Hall g) as (Hgnone & Hgfound); [by right|].
    rewrite !(lookup_file_insert _ _ _ _ _ _ _ Hout).
    rewrite !decide_False by (intros [_ ?]; done). done.
Qed.

End LoopOutcome.

(** ** The folder loop as a user meets it *)

Section LoopCell.

Implicit Types (files : ImageFileCollection) (first_bias : CCDData) (w : World).

(** X6. With a collection created from the folder as it is, the loop returns
    whenever the output directory exists, holds no file named like a bias
    frame of the folder, and every bias frame has as many rows as
    [first_bias]. *)
Theorem X6_loop_returns_on_a_clean_folder files first_bias w w0 outdir :
  Notebook.cell_files w = (inr files, w0) →
  fs w !! "reduced"%string = Some outdir →
  (∀ f h d, lookup_file w "python_imred_data" f = Some (FitsFile h d) →
            typed_as "BIAS" w "python_imred_data" f →
            outdir !! f = None ∧ nrows d = nrows (data first_bias)) →
  ∃ w', Notebook.cell_loop files first_bias w = (inr (), w').
Proof.
  intros Hfiles Hout Hall.
  pose proof (summary_names_NoDup _ _ _ _ Hfiles) as Hnd.
  destruct (summary_init _ _ _ _ Hfiles) as (_ & Hloc & Hsum).
  unfold Notebook.cell_loop, ccds_loop. rewrite Hloc.
  apply loop_succeeds; [by apply files_filtered_NoDup|done|by eexists|].
  intros f (hdr & Hrow & Hm)%elem_of_files_filtered.
  apply Hsum in Hrow as [d Hd].
  apply keyword_matches_BIAS in Hm as (v & Hv & Hlow).
  destruct (Hall f hdr d Hd) as [Hfree Hrows]; [by exists hdr, d, v|].
  split; [|by exists hdr, d].
  unfold lookup_file. change Notebook.calibrated_data with "reduced"%string.
  by rewrite Hout.
Qed.

Lemma X6_witness :
  ∃ w', Notebook.cell_loop (Sample.files_of Sample.two_biases)
          (Sample.first_bias_of Sample.two_biases) Sample.two_biases = (inr (), w').
Proof.
  apply (X6_loop_returns_on_a_clean_folder _ _ _ Sample.two_biases ∅).
  - vm_compute. reflexivity.
  - vm_compute. reflexivity.
  - intros f h d Hd _. split; [apply lookup_empty|].
    assert (fs Sample.two_biases !! "python_imred_data"%string
            = Some ({[ "ccd.001.0.fits"%string
                         := FitsFile (Sample.hdr "BIAS") [Sample.frame_row 1100 1000];
                       "ccd.002.0.fits"%string
                         := FitsFile (Sample.hdr "BIAS") [Sample.frame_row 1120 1020];
                       "ccd.014.0.fits"%string
                         := FitsFile (Sample.hdr "FLAT") [Sample.frame_row 9000 1010] ]}
                    : gmap string File)) as Hraw by reflexivity.
    unfold lookup_file in Hd. rewrite Hraw in Hd. cbn in Hd.
    assert (nrows (data (Sample.first_bias_of Sample.two_biases)) = 1) as ->
      by (vm_compute; reflexivity).
    apply lookup_insert_Some in Hd as [[_ Hd]|[_ Hd]]; [by injection Hd as <- <-|].
    apply lookup_insert_Some in Hd as [[_ Hd]|[_ Hd]]; [by injection Hd as <- <-|].
    apply lookup_singleton_Some in Hd as [_ Hd]. by injection Hd as <- <-.
Defined.

(** X7. Whatever the outcome of the loop, every file that was on disk before
    is there unchanged afterwards: nothing outside the output directory is
    touched, so the raw images are never overwritten, and no file of the
    output directory is replaced. *)
Theorem X7_loop_never_overwrites files first_bias w :
  let w' := snd (Notebook.cell_loop files first_bias w) in
  (∀ d g x, lookup_file w d g = Some x → lookup_file w' d g = Some x)
  ∧ (∀ d g, d ≠ "reduced"%string → lookup_file w' d g = lookup_file w d g).
Proof.
  cbn zeta. unfold Notebook.cell_loop, ccds_loop.
  destruct (loop_keeps_files first_bias (location files)
              (files_filtered files "imagetyp" "BIAS") w) as (Hkeep & Hraw & _).
  by split.
Qed.

(** X8. Without the output directory, which the cell meant to create it never
    creates, the loop stops at its first image: the image is read, its name is
    printed, and [write] raises [FileNotFoundError]; nothing is written. *)
Theorem X8_loop_without_output_directory files first_bias w f rest h d :
  fs w !! "reduced"%string = None →
  Notebook.raw_biases files = f :: rest →
  lookup_file w (location files) f = Some (FitsFile h d) →
  nrows d = nrows (data first_bias) →
  Notebook.cell_loop files first_bias w
  = (inl (FileNotFoundError "reduced" f),
     {| fs := fs w;
        trace := trace w ++ [EvRead (location files) f; EvPrint ("foo " ++ f)%string] |}).
Proof.
  intros Hnone Hnames Hfound Hrows.
  unfold Notebook.cell_loop, ccds_loop. unfold Notebook.raw_biases in Hnames.
  rewrite Hnames, for_ccds_cons, (turn_found _ _ _ _ _ _ Hfound).
  rewrite broadcast_sub_rows.
  2:{ unfold overscan_region, cols_from, nrows in *.
      by rewrite length_median_axis1, length_fmap. }
  change Notebook.calibrated_data with "reduced"%string. by rewrite Hnone.
Qed.

Lemma X8_witness :
  Notebook.cell_loop (Sample.files_of Sample.no_outdir)
    (Sample.first_bias_of Sample.no_outdir) Sample.no_outdir
  = (inl (FileNotFoundError "reduced" "ccd.001.0.fits"),
     {| fs := fs Sample.no_outdir;
        trace := trace Sample.no_outdir
                 ++ [EvRead (location (Sample.files_of Sample.no_outdir)) "ccd.001.0.fits";
                     EvPrint "foo ccd.001.0.fits"] |}).
Proof.
  apply (X8_loop_without_output_directory _ _ _ _ ["ccd.002.0.fits"%string]
           (Sample.hdr "BIAS") [Sample.frame_row 1100 1000]);
    vm_compute; reflexivity.
Defined.

(** X9. The loop cannot be run twice: after a run that returned, a second run
    on the disk it left stops at the first image, because [write] finds the
    file of the first run and raises [OSError]; the disk is left as it
    was. *)
Theorem X9_second_run_raises files first_bias w w' f rest :
  Notebook.cell_loop files first_bias w = (inr (), w') →
  Notebook.raw_biases files = f :: rest →
  Notebook.cell_loop files first_bias w'
  = (inl (OSError "reduced" f),
     {| fs := fs w';
        trace := trace w' ++ [EvRead (location files) f; EvPrint ("foo " ++ f)%string] |}).
Proof.
  unfold Notebook.cell_loop, ccds_loop, Notebook.raw_biases.
  intros (_ & _ & Hin & Hothers)%loop_returns Hnames. rewrite Hnames in *.
  destruct (Hin f) as (Hnone & h & d & out & Hfound & Hcal & Hout); [by left|].
  assert (location files ≠ Notebook.calibrated_data) as Hdir.
  { intros Heq. rewrite Heq in Hfound. congruence. }
  assert (lookup_file w' (location files) f = Some (FitsFile h d)) as Hfound'.
  { rewrite Hothers; [done|by right]. }
  rewrite for_ccds_cons, (turn_found _ _ _ _ _ _ Hfound').
  rewrite subtract_then_trim_unfold in Hcal. cbn [data] in Hcal.
  destruct (broadcast_sub _ _) as [shifted|]; [|done].
  unfold lookup_file in Hout.
  destruct (fs w' !! Notebook.calibrated_data) as [outdir|]; [|done].
  cbn in Hout. by rewrite Hout.
Qed.

Lemma X9_witness :
  let files := Sample.files_of Sample.two_biases in
  let first_bias := Sample.first_bias_of Sample.two_biases in
  let w' := snd (Notebook.cell_loop files first_bias Sample.two_biases) in
  fst (Notebook.cell_loop files first_bias w') = inl (OSError "reduced" "ccd.001.0.fits").
Proof.
  intros files first_bias w'.
  assert (Notebook.cell_loop files first_bias Sample.two_biases = (inr (), w')) as Hrun
    by (vm_compute; reflexivity).
  assert (Notebook.raw_biases files = ["ccd.001.0.fits"; "ccd.002.0.fits"]%string)
    as Hnames by (vm_compute; reflexivity).
  by rewrite (X9_second_run_raises _ _ _ _ _ _ Hrun Hnames).
Defined.

(** X10. When the loop comes to an image whose number of rows differs from
    that of [first_bias], neither of the two being one, the subtraction raises
    [ValueError]: the loop ends there, after the read and the print, and
    writes nothing for that image or the later ones. *)
Theorem X10_row_mismatch_raises files first_bias w w1 pre f post h d :
  Notebook.raw_biases files = pre ++ f :: post →
  for_ccds (location files) "adu" (Notebook.loop_body first_bias) pre w = (inr (), w1) →
  lookup_file w1 (location files) f = Some (FitsFile h d) →
  nrows d ≠ nrows (data first_bias) →
  nrows d ≠ 1 →
  nrows (data first_bias) ≠ 1 →
  Notebook.cell_loop files first_bias w
  = (inl (ValueError "operands could not be broadcast together"),
     {| fs := fs w1;
        trace := trace w1 ++ [EvRead (location files) f; EvPrint ("foo " ++ f)%string] |}).
Proof.
  intros Hnames Hpre Hfound Hne Hd Hfb.
  unfold Notebook.cell_loop, ccds_loop. unfold Notebook.raw_biases in Hnames.
  rewrite Hnames, loop_app, Hpre, for_ccds_cons, (turn_found _ _ _ _ _ _ Hfound).
  assert (length (median_axis1 (overscan_region (data first_bias)))
          = nrows (data first_bias)) as Hlen.
  { unfold overscan_region, cols_from, nrows.
    by rewrite length_median_axis1, length_fmap. }
  rewrite broadcast_sub_None; [done|by rewrite Hlen..|done].
Qed.

Lemma X10_witness :
  let files := Sample.files_of two_and_three_rows in
  let first_bias := Sample.first_bias_of two_and_three_rows in
  fst (Notebook.cell_loop files first_bias two_and_three_rows)
  = inl (ValueError "operands could not be broadcast together").
Proof.
  intros files first_bias.
  assert (for_ccds (location files) "adu" (Notebook.loop_body first_bias)
            ["ccd.001.0.fits"%string] two_and_three_rows
          = (inr (), snd (for_ccds (location files) "adu" (Notebook.loop_body first_bias)
                            ["ccd.001.0.fits"%string] two_and_three_rows))) as Hpre
    by (vm_compute; reflexivity).
  rewrite (X10_row_mismatch_raises files first_bias two_and_three_rows _
             ["ccd.001.0.fits"%string] "ccd.002.0.fits" [] (Sample.hdr "BIAS")
             [Sample.frame_row 1120 1020; Sample.frame_row 1120 1020;
              Sample.frame_row 1120 1020] ltac:(vm_compute; reflexivity) Hpre).
  - reflexivity.
  - vm_compute. reflexivity.
  - vm_compute. lia.
  - vm_compute. lia.
  - vm_compute. lia.
Defined.

(** X11. The slip of the loop does not show on the first bias frame: when
    [first_bias] has been read by its cell and the loop returns, the file the
    loop writes for that frame holds exactly [trimmed_bias], the image the
    sample cells compute from [first_bias]. *)
Theorem X11_loop_agrees_with_sample_on_first_bias files first_bias w w1 w2 :
  Notebook.cell_first_bias files w = (inr first_bias, w1) →
  Notebook.cell_loop files first_bias w1 = (inr (), w2) →
  ∃ f trimmed_bias,
    head (Notebook.raw_biases files) = Some f
    ∧ Notebook.cell_sample first_bias = inr trimmed_bias
    ∧ lookup_file w2 "reduced" f
      = Some (written (header first_bias) (data trimmed_bias)).
Proof.
  intros Hfirst Hloop. unfold Notebook.cell_first_bias in Hfirst.
  destruct (Notebook.raw_biases files) as [|f rest] eqn:Hnames; [done|].
  unfold CCDData_read in Hfirst.
  destruct (lookup_file w (location files) f) as [[h d|]|] eqn:Hfound; [|done..].
  cbn in Hfirst. injection Hfirst as <- <-.
  unfold Notebook.cell_loop, ccds_loop in Hloop.
  apply loop_returns in Hloop as (_ & _ & Hin & _).
  unfold Notebook.raw_biases in Hnames. rewrite Hnames in Hin.
  destruct (Hin f) as (_ & h' & d' & out & Hfound' & Hcal & Hout); [by left|].
  rewrite (lookup_file_same_fs w) in Hfound' by done.
  rewrite Hfound in Hfound'. injection Hfound' as <- <-.
  exists f, out. split; [done|]. by rewrite cell_sample_unfold.
Qed.

Lemma X11_witness :
  ∃ trimmed_bias,
    Notebook.cell_sample (Sample.first_bias_of Sample.two_biases) = inr trimmed_bias
    ∧ lookup_file (snd (Notebook.cells_from_files Sample.two_biases)) "reduced" "ccd.001.0.fits"
      = Some (written (Sample.hdr "BIAS") (data trimmed_bias)).
Proof.
  pose (files := Sample.files_of Sample.two_biases).
  pose (first_bias := Sample.first_bias_of Sample.two_biases).
  pose (w1 := snd (Notebook.cell_first_bias files Sample.two_biases)).
  assert (Notebook.cell_first_bias files Sample.two_biases = (inr first_bias, w1)) as H1
    by (vm_compute; reflexivity).
  assert (Notebook.cell_loop files first_bias w1
          = (inr (), snd (Notebook.cells_from_files Sample.two_biases))) as H2
    by (vm_compute; reflexivity).
  destruct (X11_loop_agrees_with_sample_on_first_bias _ _ _ _ _ H1 H2)
    as (f & trimmed & Hhead & Hsample & Hfile).
  assert (f = "ccd.001.0.fits"%string) as ->.
  { vm_compute in Hhead. by injection Hhead as <-. }
  exists trimmed. split; [exact Hsample|]. exact Hfile.
Defined.

(** X12. The check after the loop: when the output directory was empty and the
    loop returned, the collection created from the output directory lists
    exactly the names of the bias frames, as many rows as there were bias
    frames, and each listed image has at most 2048 columns in every row. *)
Theorem X12_reduced_collection_lists_the_bias_frames files first_bias w w' :
  fs w !! "reduced"%string = Some ∅ →
  Notebook.cell_loop files first_bias w = (inr (), w') →
  ∃ reduced_images,
    cell_reduced_images w' = (inr reduced_images, w')
    ∧ (summary reduced_images).*1 ≡ₚ Notebook.raw_biases files
    ∧ length (summary reduced_images) = length (Notebook.raw_biases files)
    ∧ ∀ f hdr, (f, hdr) ∈ summary reduced_images →
        ∃ d, lookup_file w' "reduced" f = Some (FitsFile hdr d)
             ∧ Forall (λ row, length row ≤ 2048) d.
Proof.
  intros Hempty Hrun.
  assert (is_Some (fs w' !! "reduced"%string)) as [outdir Hout].
  { pose proof (loop_keeps_files first_bias (location files)
                  (files_filtered files "imagetyp" "BIAS") w) as (_ & _ & Hdirs).
    unfold Notebook.cell_loop, ccds_loop in Hrun. rewrite Hrun in Hdirs.
    apply Hdirs. by eexists. }
  unfold Notebook.cell_loop, ccds_loop in Hrun.
  apply loop_returns in Hrun as (Hnd & _ & Hin & Hothers).
  destruct (cell_reduced_images w') as [[e|reduced_images] w''] eqn:Hinit.
  { unfold cell_reduced_images, ImageFileCollection_init in Hinit.
    change Notebook.calibrated_data with "reduced"%string in Hinit.
    by rewrite Hout in Hinit. }
  pose proof (summary_names_NoDup _ _ _ _ Hinit) as Hnd'.
  destruct (summary_init _ _ _ _ Hinit) as (-> & _ & Hsum).
  change Notebook.calibrated_data with "reduced"%string in Hsum, Hin, Hothers.
  assert (∀ f, lookup_file w "reduced" f = None) as Hw.
  { intros f. unfold lookup_file. rewrite Hempty. cbn. apply lookup_empty. }
  assert (∀ f hdr, (f, hdr) ∈ summary reduced_images →
            f ∈ Notebook.raw_biases files
            ∧ ∃ d, lookup_file w' "reduced" f = Some (FitsFile hdr d)
                   ∧ Forall (λ row, length row ≤ 2048) d) as Hrows.
  { intros f hdr [d Hd]%Hsum.
    destruct (decide (f ∈ files_filtered files "imagetyp" "BIAS")) as [Hf|Hf].
    - split; [done|]. exists d. split; [done|].
      destruct (Hin f Hf) as (_ & h & d0 & out & _ & Hcal & Hfile).
      rewrite Hfile in Hd. injection Hd as _ <-.
      rewrite subtract_then_trim_unfold in Hcal.
      destruct (broadcast_sub _ _) as [shifted|]; [|done]. injection Hcal as <-.
      cbn [data with_data]. unfold kept_region, cols_upto.
      apply Forall_fmap, Forall_true. intros row. cbn. rewrite length_take. lia.
    - rewrite Hothers in Hd by (by left). by rewrite Hw in Hd. }
  assert ((summary reduced_images).*1 ≡ₚ Notebook.raw_biases files) as Hperm.
  { apply NoDup_Permutation; [done|done|]. intros f. split.
    - intros ([g hdr] & -> & Hrow)%list_elem_of_fmap. by apply (Hrows g hdr).
    - intros Hf. destruct (Hin f Hf) as (_ & h & d0 & out & _ & _ & Hfile).
      apply list_elem_of_fmap. exists (f, <["bunit" := "adu"]> h)%string.
      split; [done|]. apply Hsum. by eexists. }
  exists reduced_images. split; [done|]. split; [done|]. split.
  - rewrite <- (length_fmap fst). by rewrite Hperm.
  - intros f hdr Hrow. by apply (Hrows f hdr).
Qed.

Lemma X12_witness :
  ∃ reduced_images,
    cell_reduced_images (snd (Notebook.cells_from_files Sample.two_biases))
    = (inr reduced_images, snd (Notebook.cells_from_files Sample.two_biases))
    ∧ length (summary reduced_images) = 2.
Proof.
  pose (files := Sample.files_of Sample.two_biases).
  pose (first_bias := Sample.first_bias_of Sample.two_biases).
  pose (w1 := snd (Notebook.cell_first_bias files Sample.two_biases)).
  assert (fs w1 !! "reduced"%string = Some ∅) as Hempty by (vm_compute; reflexivity).
  assert (Notebook.cell_loop files first_bias w1
          = (inr (), snd (Notebook.cells_from_files Sample.two_biases))) as Hrun
    by (vm_compute; reflexivity).
  destruct (X12_reduced_collection_lists_the_bias_frames _ _ _ _ Hempty Hrun)
    as (reduced_images & Hinit & _ & Hlen & _).
  exists reduced_images. split; [exact Hinit|].
  rewrite Hlen. vm_compute. reflexivity.
Defined.

End LoopCell.

(** ** The cells of the overscan notebook *)

Section OverscanCells.

Implicit Types (a : ndarray) (ccd : CCDData).

Local Abbreviation index_error := (IndexError "index is out of bounds for axis 0").

Lemma getitem_row_nat a (k : nat) :
  Overscan.getitem_row a (Z.of_nat k)
  = match a !! k with Some row => inr row | None => inl index_error end.
Proof.
  unfold Overscan.getitem_row.
  assert ((Z.of_nat k <? 0)%Z = false) as -> by (apply Z.ltb_ge; lia).
  assert ((0 <=? Z.of_nat k)%Z = true) as -> by (apply Z.leb_le; lia).
  rewrite Nat2Z.id. cbn [andb].
  destruct (Z.of_nat k <? Z.of_nat (length a))%Z eqn:Hlt; [done|].
  apply Z.ltb_ge in Hlt. rewrite lookup_ge_None_2; [done|]. lia.
Qed.

Lemma getitem_row_last a :
  Overscan.getitem_row a (-1)
  = match last a with Some row => inr row | None => inl index_error end.
Proof.
  unfold Overscan.getitem_row. change (-1 <? 0)%Z with true. cbn iota.
  rewrite last_lookup. destruct a as [|row a]; [done|].
  cbn [length].
  assert ((0 <=? -1 + Z.of_nat (S (length a)))%Z = true) as ->
    by (apply Z.leb_le; lia).
  assert ((-1 + Z.of_nat (S (length a)) <? Z.of_nat (S (length a)))%Z = true) as ->
    by (apply Z.ltb_lt; lia).
  cbn [andb].
  replace (Z.to_nat (-1 + Z.of_nat (S (length a)))) with (Nat.pred (S (length a))) by lia.
  cbn [Nat.pred]. by destruct ((row :: a) !! length a).
Qed.

(** X13. The cell that plots the overscan mean and three rows of the bias
    frame needs a frame of at least 1001 rows.  With them it plots, in this
    order, the per-row mean of the columns from 2048 on, row 0, row 1000 and
    the last row.  With fewer rows it raises [IndexError] after the curves
    plotted so far: the mean alone for a frame without rows, the mean and row
    0 otherwise. *)
Theorem X13_plot_rows_needs_1001_rows ccd :
  let a := data ccd in
  match a !! 1000 with
  | Some row1000 =>
      ∃ row0 last_row,
        a !! 0 = Some row0
        ∧ last a = Some last_row
        ∧ Overscan.cell_plot_rows ccd
          = ([mean_axis1 (cropped_region a); row0; row1000; last_row], None)
  | None =>
      Overscan.cell_plot_rows ccd
      = (match a !! 0 with
         | Some row0 => [mean_axis1 (cropped_region a); row0]
         | None => [mean_axis1 (cropped_region a)]
         end, Some index_error)
  end.
Proof.
  cbn zeta. unfold Overscan.cell_plot_rows.
  change 0%Z with (Z.of_nat 0). change 1000%Z with (Z.of_nat 1000).
  rewrite !getitem_row_nat, getitem_row_last.
  change (cols_from 2048 (data ccd)) with (cropped_region (data ccd)).
  destruct (data ccd !! 1000) as [row1000|] eqn:H1000.
  - assert (1000 < length (data ccd)) as Hlen by (by eapply lookup_lt_Some).
    destruct (data ccd !! 0) as [row0|] eqn:H0.
    2:{ apply lookup_ge_None in H0. lia. }
    destruct (last (data ccd)) as [last_row|] eqn:Hlast.
    2:{ apply last_None in Hlast. rewrite Hlast in Hlen. cbn in Hlen. lia. }
    by exists row0, last_row.
  - by destruct (data ccd !! 0).
Qed.

End OverscanCells.
